(** * green/app.py: a one-route Flask application

    The module under study is

<<
    from flask import Flask

    app = Flask(__name__)

    @app.route("/")
    def hello_blue():
        return "<h1 style='color:blue'>Hello, green!</h1>"

    if __name__ == "__main__":
        app.run(host='0.0.0.0', port=5000)
>>

    The module is embedded as a computation in a small state-and-exception
    monad [Py] over the state of the Python process.  The part of Flask and
    Werkzeug that the module calls (route registration, URL matching, request
    dispatch, response construction, the development server's bind and serve
    loop) is written out below as far as this program exercises it:
    converter-free rules, no blueprints, no error handlers, no before/after
    request hooks, debug off.  The semantics of these calls is the one Flask
    and Werkzeug document; their code is not part of the repository.  Left
    out: Flask's built-in static-file rule [/static/<path:filename>], which
    shares no path with [/], and the development server's start-up banner
    and access log. *)

From Stdlib Require Import ZArith.
From stdpp Require Import base strings gmap list.

Local Open Scope Z_scope.

(** ** Requests, responses, exceptions *)

Record Request := {
  method : string;                      (* request.method, upper-cased by Werkzeug *)
  path : string;                        (* request.path, without the query string *)
  query_string : string;
  headers : list (string * string);
  body : string
}.

Record Response := {
  status : Z;
  mimetype : string;
  allow : gset string;                  (* the Allow header; empty when absent *)
  data : string
}.

Inductive exn :=
| NotFound                               (* werkzeug.exceptions, code 404 *)
| MethodNotAllowed (valid_methods : gset string)   (* code 405 *)
| InternalServerError                    (* code 500 *)
| KeyError (key : string)
| NameError (name : string)
| TypeError
| AssertionError (msg : string)
| OSError (errno : Z).

(** The function objects the module defines.  A function object is a
    reference: Flask stores it in [view_functions] and compares it by
    identity; its body is looked up in [code] below. *)
Inductive Function := def_hello_blue.

Global Instance Function_eq_dec : EqDecision Function.
Proof. solve_decision. Defined.

Definition func_name (f : Function) : string :=
  match f with def_hello_blue => "hello_blue" end.

(** What a view function may return to Flask. *)
Inductive ReturnValue :=
| RvStr (s : string)
| RvResponse (r : Response)
| RvException (e : exn).

(** ** The application object *)

Record Rule := {
  rule : string;
  endpoint : string;
  methods : gset string;
  provide_automatic_options : bool
}.

Record Flask := {
  import_name : string;
  url_map : list Rule;
  view_functions : gmap string Function
}.

(** ** The process *)

Inductive ServerState := Stopped | Listening (host : string) (port : Z).

(** What the process does that can be seen from outside, in order.  [EvCall]
    is a ghost event: it records that the dispatcher entered a view function. *)
Inductive event :=
| EvBind (host : string) (port : Z)      (* bind(2) on the listening socket *)
| EvCall (f : Function)
| EvSend (r : Response)                  (* a response written to a client *)
| EvLog (e : exn)                        (* app.logger.error for an unhandled exception *)
| EvTraceback (e : exn).                 (* the interpreter's report of an uncaught exception *)

Record Process := {
  app : option Flask;                    (* the module global [app]; None while unbound *)
  server : ServerState;
  out : list event
}.

Definition fresh : Process := {| app := None; server := Stopped; out := [] |}.

(** The operating system and the network, as the process meets them:
    whether bind(2) on an address fails (and with which errno), and the
    requests that arrive until the process is terminated. *)
Record Env := {
  bind_error : string → Z → option Z;
  incoming : list Request
}.

(** ** The monad of Python computations *)

Inductive Outcome (A : Type) :=
| Return (a : A)
| Raise (e : exn).
Arguments Return {A} a.
Arguments Raise {A} e.

Definition Py (A : Type) : Type := Process → Outcome A * Process.

Global Instance Py_ret : MRet Py := λ A a p, (Return a, p).

Global Instance Py_bind : MBind Py := λ A B k m p,
  match m p with
  | (Return a, p') => k a p'
  | (Raise e, p') => (Raise e, p')
  end.

Definition raise {A} (e : exn) : Py A := λ p, (Raise e, p).

(** try: m except Exception as e: h e *)
Definition catch {A} (m : Py A) (h : exn → Py A) : Py A := λ p,
  match m p with
  | (Raise e, p') => h e p'
  | r => r
  end.

(** The process after it has produced the events [evs]. *)
Definition log (p : Process) (evs : list event) : Process :=
  {| app := app p; server := server p; out := out p ++ evs |}.

Definition emit (ev : event) : Py unit := λ p, (Return tt, log p [ev]).

Definition set_server (s : ServerState) : Py unit := λ p,
  (Return tt, {| app := app p; server := s; out := out p |}).

Definition set_app (a : Flask) : Py unit := λ p,
  (Return tt, {| app := Some a; server := server p; out := out p |}).

(** Reading the global [app]; every method below is called on it. *)
Definition self : Py Flask := λ p,
  match app p with
  | Some a => (Return a, p)
  | None => (Raise (NameError "app"), p)
  end.

(** ** The view function (app.py, lines 6-7) *)

Definition hello_blue : Py ReturnValue :=
  mret (RvStr "<h1 style='color:blue'>Hello, green!</h1>").

Definition code (f : Function) : Py ReturnValue :=
  match f with def_hello_blue => hello_blue end.

Definition call (f : Function) : Py ReturnValue :=
  emit (EvCall f) ;; code f.

(** ** Strings *)

Definition upper_ascii (c : Ascii.ascii) : Ascii.ascii :=
  let n := Ascii.N_of_ascii c in
  if ((97 <=? n) && (n <=? 122))%N then Ascii.ascii_of_N (n - 32)%N else c.

Fixpoint upper (s : string) : string :=
  match s with
  | EmptyString => EmptyString
  | String c s' => String (upper_ascii c) (upper s')
  end.

Section Framework.

(** The HTML page the framework renders for an HTTP error status.  Its text
    belongs to the framework and no part of the module depends on it. *)
Variable error_page : Z → string.

(** ** Registration: Flask(...), add_url_rule, route *)

(** [app = Flask(name)]: an application with no rule and no view function. *)
Definition Flask_init (name : string) : Py unit :=
  set_app {| import_name := name; url_map := []; view_functions := ∅ |}.

(** werkzeug.routing.Rule.__init__: upper-case the methods; GET implies HEAD. *)
Definition Rule_init (r : string) (ms : gset string) (ep : string) (pao : bool) : Rule :=
  let ms := set_map upper ms : gset string in
  let ms := if decide (("HEAD" ∉ ms) ∧ ("GET" ∈ ms)) then ms ∪ {["HEAD"]} else ms in
  {| rule := r; endpoint := ep; methods := ms; provide_automatic_options := pao |}.

(** self.url_map.add(rule) and self.view_functions[endpoint] = view_func *)
Definition with_rule (a : Flask) (r : Rule) : Flask :=
  {| import_name := import_name a; url_map := url_map a ++ [r];
     view_functions := view_functions a |}.

Definition with_view (a : Flask) (ep : string) (f : Function) : Flask :=
  {| import_name := import_name a; url_map := url_map a;
     view_functions := <[ep := f]> (view_functions a) |}.

(** Flask.add_url_rule(rule, endpoint=None, view_func, methods=None).  A
    plain function has no [methods], [required_methods] or
    [provide_automatic_options] attribute. *)
Definition add_url_rule (r : string) (ep : option string) (view_func : Function)
    (ms : option (list string)) : Py unit :=
  a ← self;
  let ep := default (func_name view_func) ep in
  let ms : gset string := list_to_set (upper <$> default ["GET"] ms) in
  let required_methods : gset string := ∅ in
  let '(pao, required_methods) :=
    if decide ("OPTIONS" ∉ ms) then (true, required_methods ∪ {["OPTIONS"]})
    else (false, required_methods) in
  let ms := ms ∪ required_methods in
  let a := with_rule a (Rule_init r ms ep pao) in
  set_app a ;;
  match view_functions a !! ep with
  | Some old_func =>
      if decide (old_func ≠ view_func) then
        raise (AssertionError "View function mapping is overwriting an existing endpoint function")
      else set_app (with_view a ep view_func)
  | None => set_app (with_view a ep view_func)
  end.

(** The decorator [@app.route(rule, **options)]: registers [f], returns [f]. *)
Definition route (r : string) (ms : option (list string)) (f : Function) : Py Function :=
  add_url_rule r None f ms ;; mret f.

(** ** Routing: MapAdapter.match and MapAdapter.allowed_methods *)

(** The first rule whose path and methods match wins.  A rule that matches
    the path but not the method adds its methods to [have_match_for]; when no
    rule is left the request is answered by MethodNotAllowed if some path
    matched and by NotFound otherwise. *)
Fixpoint match_rules (rules : list Rule) (pth mth : string)
    (have_match_for : gset string) : exn + Rule :=
  match rules with
  | [] =>
      if decide (have_match_for ≠ ∅) then inl (MethodNotAllowed have_match_for)
      else inl NotFound
  | r :: rest =>
      if decide (rule r = pth) then
        if decide (mth ∉ methods r) then
          match_rules rest pth mth (have_match_for ∪ methods r)
        else inr r
      else match_rules rest pth mth have_match_for
  end.

(** The methods some rule accepts on [pth]: matching with a method no rule
    has and reading them off the MethodNotAllowed. *)
Definition allowed_methods (a : Flask) (pth : string) : gset string :=
  match match_rules (url_map a) pth "--" ∅ with
  | inl (MethodNotAllowed valid) => valid
  | _ => ∅
  end.

(** ** Responses *)

Definition code_of (e : exn) : option Z :=
  match e with
  | NotFound => Some 404
  | MethodNotAllowed _ => Some 405
  | InternalServerError => Some 500
  | _ => None
  end.

(** HTTPException.get_response *)
Definition get_response (e : exn) (c : Z) : Response :=
  {| status := c; mimetype := "text/html";
     allow := match e with MethodNotAllowed valid => valid | _ => ∅ end;
     data := error_page c |}.

(** Flask.make_response *)
Definition make_response (rv : ReturnValue) : Py Response :=
  match rv with
  | RvStr s => mret {| status := 200; mimetype := "text/html"; allow := ∅; data := s |}
  | RvResponse r => mret r
  | RvException e =>
      match code_of e with
      | Some c => mret (get_response e c)
      | None => raise TypeError
      end
  end.

(** Flask.make_default_options_response: an empty 200 with the Allow header. *)
Definition make_default_options_response (req : Request) : Py ReturnValue :=
  a ← self;
  mret (RvResponse {| status := 200; mimetype := "text/html";
                      allow := allowed_methods a (path req); data := "" |}).

(** ** Dispatch *)

(** Flask.dispatch_request: raise the routing exception if there is one,
    answer OPTIONS automatically where the rule asks for it, and otherwise
    call the view function registered for the rule's endpoint. *)
Definition dispatch_request (req : Request) : Py ReturnValue :=
  a ← self;
  match match_rules (url_map a) (path req) (method req) ∅ with
  | inl e => raise e
  | inr r =>
      if provide_automatic_options r && bool_decide (method req = "OPTIONS") then
        make_default_options_response req
      else
        match view_functions a !! endpoint r with
        | Some f => call f
        | None => raise (KeyError (endpoint r))
        end
  end.

(** With no error handler registered an HTTPException is its own response;
    any other exception is raised again. *)
Definition handle_user_exception (e : exn) : Py ReturnValue :=
  match code_of e with
  | Some _ => mret (RvException e)
  | None => raise e
  end.

(** Flask.full_dispatch_request: dispatch, then build the response. *)
Definition full_dispatch_request (req : Request) : Py Response :=
  rv ← catch (dispatch_request req) handle_user_exception;
  make_response rv.

(** With debug and testing off the exception is logged and answered by a 500. *)
Definition handle_exception (e : exn) : Py Response :=
  emit (EvLog e) ;;
  make_response (RvException InternalServerError).

(** Response.get_app_iter: no body for HEAD and for 1xx, 204, 304. *)
Definition get_app_iter (req : Request) (r : Response) : Response :=
  if bool_decide (method req = "HEAD")
     || ((100 <=? status r) && (status r <? 200))
     || bool_decide (status r = 204) || bool_decide (status r = 304)
  then {| status := status r; mimetype := mimetype r; allow := allow r; data := "" |}
  else r.

(** Flask.wsgi_app: the response the WSGI server is given to write. *)
Definition wsgi_app (req : Request) : Py Response :=
  response ← catch (full_dispatch_request req) handle_exception;
  mret (get_app_iter req response).

(** ** The development server: Flask.run, werkzeug.serving.run_simple *)

(** One request: run the application and write its response. *)
Definition handle_request (req : Request) : Py unit :=
  response ← wsgi_app req;
  emit (EvSend response).

(** Serves the requests that arrive; returns when the process is interrupted. *)
Fixpoint serve_forever (reqs : list Request) : Py unit :=
  match reqs with
  | [] => mret tt
  | req :: rest => handle_request req ;; serve_forever rest
  end.

(** Flask.run(host=None, port=None): bind once, then serve.  A failing bind
    raises; nothing in the framework tries again or tries another address. *)
Definition run (env : Env) (host : option string) (port : option Z) : Py unit :=
  _ ← self;
  let host := default "127.0.0.1" host in
  let port := default 5000 port in
  emit (EvBind host port) ;;
  match bind_error env host port with
  | Some errno => raise (OSError errno)
  | None => set_server (Listening host port) ;; serve_forever (incoming env)
  end.

(** ** The module body (app.py) *)

(** Lines 3-7: the application object and the decorated function. *)
Definition declarations (__name__ : string) : Py Function :=
  Flask_init __name__ ;;
  route "/" None def_hello_blue.

(** Lines 3-10. *)
Definition exec_module (env : Env) (__name__ : string) : Py unit :=
  _ ← declarations __name__;
  if decide (__name__ = "__main__") then run env (Some "0.0.0.0") (Some 5000)
  else mret tt.

(** Running the interpreter on the module: an uncaught exception is reported
    on stderr and the process exits with status 1; otherwise with status 0. *)
Record Exit := { exit_status : Z; final : Process }.

Definition python (env : Env) (__name__ : string) : Exit :=
  match exec_module env __name__ fresh with
  | (Return _, p) => {| exit_status := 0; final := p |}
  | (Raise e, p) =>
      {| exit_status := 1; final := log p [EvTraceback e] |}
  end.

(** ** What the module registers, and the states of a running process *)

Definition root_methods : gset string := {["GET"; "HEAD"; "OPTIONS"]}.

Definition root_rule : Rule :=
  {| rule := "/"; endpoint := "hello_blue"; methods := root_methods;
     provide_automatic_options := true |}.

(** The application object after lines 3-7 (see [declarations_fresh]). *)
Definition registered (__name__ : string) : Flask :=
  {| import_name := __name__; url_map := [root_rule];
     view_functions := {["hello_blue" := def_hello_blue]} |}.

(** The view functions that answer method [mth] on path [pth], in the order
    of the URL map. *)
Definition handlers (a : Flask) (pth mth : string) : list Function :=
  omap (λ r, view_functions a !! endpoint r)
       (filter (λ r, rule r = pth ∧ mth ∈ methods r) (url_map a)).

(** The process holds the application object that lines 3-7 build. *)
Definition Loaded (__name__ : string) (p : Process) : Prop :=
  app p = app (declarations __name__ fresh).2.

(** The addresses the process has tried to bind, in order. *)
Definition binds (evs : list event) : list (string * Z) :=
  omap (λ ev, match ev with EvBind h pt => Some (h, pt) | _ => None end) evs.

(** The events of request handling: entering a view, logging an unhandled
    exception, sending a response. *)
Definition serving_event (ev : event) : Prop :=
  match ev with
  | EvCall _ | EvLog _ | EvSend _ => True
  | EvBind _ _ | EvTraceback _ => False
  end.

(** [m] leaves the application object and the server state alone and adds
    only serving events to the output. *)
Definition serves {A} (m : Py A) : Prop :=
  ∀ p, ∃ evs, (m p).2 = log p evs ∧ Forall serving_event evs.

(** [m] never raises. *)
Definition returns {A} (m : Py A) : Prop :=
  ∀ p, ∃ a, (m p).1 = Return a.

(** The states a process goes through: the module's declarations have been
    executed; from there on the server is started (in any environment),
    requests are handled, and an uncaught exception is reported. *)
Inductive lifetime (__name__ : string) : Process → Prop :=
| life_declared :
    lifetime __name__ (declarations __name__ fresh).2
| life_run env host port p :
    lifetime __name__ p → lifetime __name__ (run env host port p).2
| life_request req p :
    lifetime __name__ p → lifetime __name__ (handle_request req p).2
| life_traceback e p :
    lifetime __name__ p → lifetime __name__ (log p [EvTraceback e]).

(** The responses on [/]. *)
Definition hello_page : Response :=
  {| status := 200; mimetype := "text/html"; allow := ∅;
     data := "<h1 style='color:blue'>Hello, green!</h1>" |}.

Definition head_page : Response :=
  {| status := 200; mimetype := "text/html"; allow := ∅; data := "" |}.

Definition options_page : Response :=
  {| status := 200; mimetype := "text/html"; allow := root_methods; data := "" |}.

Definition not_allowed_page : Response :=
  {| status := 405; mimetype := "text/html"; allow := root_methods;
     data := error_page 405 |}.




(** ** Sample inputs *)

Definition sample_pages : Z → string := λ _, "<!doctype html>".

Definition sample_request (mth : string) : Request :=
  {| method := mth; path := "/"; query_string := "colour=red&n=2";
     headers := [("Host", "localhost:5000"); ("Accept", "*/*")];
     body := "ignored" |}.

(** Port 5000 is taken: bind fails with EADDRINUSE (98). *)
Definition busy_env : Env :=
  {| bind_error := λ _ _, Some 98; incoming := [sample_request "GET"] |}.

Definition free_env : Env :=
  {| bind_error := λ _ _, None;
     incoming := [sample_request "GET"; sample_request "POST"] |}.


(** * Properties *)

(** ** The log *)

Lemma log_nil p : log p [] = p.
Proof. destruct p; unfold log; simpl. by rewrite app_nil_r. Qed.

Lemma log_log p evs1 evs2 : log (log p evs1) evs2 = log p (evs1 ++ evs2).
Proof. unfold log; simpl. by rewrite <-(assoc_L (++)). Qed.

Lemma log_inj p evs1 evs2 : log p evs1 = log p evs2 → evs1 = evs2.
Proof. unfold log. intros [= H]. by apply app_inv_head in H. Qed.

Lemma binds_serving evs : Forall serving_event evs → binds evs = [].
Proof.
  induction 1 as [|ev evs Hev _ IH]; [done|].
  destruct ev; simpl in *; done.
Qed.

(** ** Registration *)

Lemma declarations_fresh name :
  declarations name fresh =
    (Return def_hello_blue,
     {| app := Some (registered name); server := Stopped; out := [] |}).
Proof. reflexivity. Qed.

Lemma elem_of_root_methods m :
  m ∈ root_methods ↔ m = "GET" ∨ m = "HEAD" ∨ m = "OPTIONS".
Proof.
  unfold root_methods. rewrite !elem_of_union, !elem_of_singleton. tauto.
Qed.

(** ** Routing to [/] *)

Lemma match_root m :
  match_rules [root_rule] "/" m ∅ =
    if decide (m ∈ root_methods) then inr root_rule
    else inl (MethodNotAllowed root_methods).
Proof.
  simpl. rewrite (left_id_L ∅ (∪)).
  destruct (decide (m ∈ root_methods)) as [Hin|Hout].
  - rewrite decide_False; [done|]. intros Hnot. by apply Hnot.
  - rewrite decide_True by exact Hout.
    rewrite decide_True; [done|].
    intros Hempty. assert ("GET" ∈ root_methods) as HGET by (by vm_compute).
    rewrite Hempty in HGET. by apply not_elem_of_empty in HGET.
Qed.

(** What the application answers on [/], method by method. *)
Lemma wsgi_app_root name req p :
  Loaded name p → path req = "/" →
  wsgi_app req p =
    if decide (method req = "GET") then
      (Return hello_page, log p [EvCall def_hello_blue])
    else if decide (method req = "HEAD") then
      (Return head_page, log p [EvCall def_hello_blue])
    else if decide (method req = "OPTIONS") then (Return options_page, p)
    else (Return not_allowed_page, p).
Proof.
  unfold Loaded. rewrite declarations_fresh. intros Happ Hpath.
  destruct req as [m pth q h b], p as [a s o]; simpl in Happ, Hpath; subst a pth.
  unfold wsgi_app, full_dispatch_request, dispatch_request,
    catch, mbind, Py_bind, self.
  cbn [app url_map path method]. rewrite match_root.
  destruct (decide (m = "GET")) as [->|HGET]; [reflexivity|].
  destruct (decide (m = "HEAD")) as [->|HHEAD]; [reflexivity|].
  destruct (decide (m = "OPTIONS")) as [->|HOPTIONS]; [reflexivity|].
  rewrite decide_False by (rewrite elem_of_root_methods; tauto).
  unfold get_app_iter; simpl. rewrite bool_decide_eq_false_2 by done.
  reflexivity.
Qed.

(** ** Computations that only serve *)

Lemma serves_ret {A} (a : A) : serves (mret a).
Proof. intros p. exists []. by rewrite log_nil. Qed.

Lemma serves_raise {A} e : serves (@raise A e).
Proof. intros p. exists []. by rewrite log_nil. Qed.

Lemma serves_self : serves self.
Proof.
  intros p. exists []. rewrite log_nil. unfold self. by destruct (app p).
Qed.

Lemma serves_emit ev : serving_event ev → serves (emit ev).
Proof. intros Hev p. exists [ev]. split; [done|]. by constructor. Qed.

Lemma serves_bind {A B} (m : Py A) (k : A → Py B) :
  serves m → (∀ a, serves (k a)) → serves (m ≫= k).
Proof.
  intros Hm Hk p. destruct (Hm p) as (evs1 & Hp1 & Hevs1).
  unfold mbind, Py_bind. destruct (m p) as [[a|e] p1]; simpl in Hp1; subst p1.
  - destruct (Hk a (log p evs1)) as (evs2 & Hp2 & Hevs2).
    exists (evs1 ++ evs2). rewrite Hp2, log_log. split; [done|].
    by apply Forall_app.
  - by exists evs1.
Qed.

Lemma serves_catch {A} (m : Py A) (h : exn → Py A) :
  serves m → (∀ e, serves (h e)) → serves (catch m h).
Proof.
  intros Hm Hh p. destruct (Hm p) as (evs1 & Hp1 & Hevs1).
  unfold catch. destruct (m p) as [[a|e] p1]; simpl in Hp1; subst p1.
  - by exists evs1.
  - destruct (Hh e (log p evs1)) as (evs2 & Hp2 & Hevs2).
    exists (evs1 ++ evs2). rewrite Hp2, log_log. split; [done|].
    by apply Forall_app.
Qed.

Create HintDb serves.
#[local] Hint Resolve serves_ret serves_raise serves_self serves_bind serves_catch : serves.
#[local] Hint Extern 1 (serves (emit _)) => apply serves_emit; exact I : serves.

Lemma serves_call f : serves (call f).
Proof. unfold call. destruct f; unfold code, hello_blue. auto with serves. Qed.

Lemma serves_make_response rv : serves (make_response rv).
Proof.
  unfold make_response. destruct rv as [s|r|e]; [auto with serves..|].
  destruct (code_of e); auto with serves.
Qed.

#[local] Hint Resolve serves_call serves_make_response : serves.

Lemma serves_dispatch_request req : serves (dispatch_request req).
Proof.
  unfold dispatch_request. apply serves_bind; [auto with serves|]. intros a.
  destruct (match_rules _ _ _ _) as [e|r]; [auto with serves|].
  destruct (_ && _).
  - unfold make_default_options_response. auto with serves.
  - destruct (_ !! _); auto with serves.
Qed.

Lemma serves_wsgi_app req : serves (wsgi_app req).
Proof.
  unfold wsgi_app, full_dispatch_request, handle_exception.
  apply serves_bind; [|auto with serves].
  apply serves_catch; [|auto with serves].
  apply serves_bind; [|auto with serves].
  apply serves_catch; [apply serves_dispatch_request|].
  intros e. unfold handle_user_exception. destruct (code_of e); auto with serves.
Qed.

Lemma serves_handle_request req : serves (handle_request req).
Proof.
  unfold handle_request. apply serves_bind; [apply serves_wsgi_app|].
  auto with serves.
Qed.

Lemma serves_serve_forever reqs : serves (serve_forever reqs).
Proof.
  induction reqs as [|req reqs IH]; simpl; [auto with serves|].
  apply serves_bind; [apply serves_handle_request|done].
Qed.

(** ** Computations that return *)

Lemma returns_bind {A B} (m : Py A) (k : A → Py B) :
  returns m → (∀ a, returns (k a)) → returns (m ≫= k).
Proof.
  intros Hm Hk p. destruct (Hm p) as [a Ha].
  unfold mbind, Py_bind. destruct (m p) as [[a'|e] p1]; [|done].
  apply Hk.
Qed.

Lemma returns_catch {A} (m : Py A) (h : exn → Py A) :
  (∀ e, returns (h e)) → returns (catch m h).
Proof.
  intros Hh p. unfold catch. destruct (m p) as [[a|e] p1]; [by exists a|].
  apply Hh.
Qed.

Lemma returns_handle_exception e : returns (handle_exception e).
Proof. intros p. by eexists. Qed.

Lemma returns_handle_request req : returns (handle_request req).
Proof.
  unfold handle_request, wsgi_app.
  apply returns_bind; [|intros r p; by eexists].
  apply returns_bind; [|intros r p; by eexists].
  apply returns_catch, returns_handle_exception.
Qed.

Lemma returns_serve_forever reqs : returns (serve_forever reqs).
Proof.
  induction reqs as [|req reqs IH]; simpl; [intros p; by eexists|].
  apply returns_bind; [apply returns_handle_request|done].
Qed.

(** The serve loop neither raises nor touches anything but the output. *)
Lemma serve_forever_spec reqs p :
  ∃ evs, serve_forever reqs p = (Return tt, log p evs) ∧ Forall serving_event evs.
Proof.
  destruct (serves_serve_forever reqs p) as (evs & Hp & Hevs).
  destruct (returns_serve_forever reqs p) as [[] Ho].
  exists evs. split; [|done].
  destruct (serve_forever reqs p) as [o p']; simpl in *. by subst.
Qed.

(** ** The module as a program *)

Lemma exec_module_import env name :
  name ≠ "__main__" →
  exec_module env name fresh =
    (Return tt, {| app := Some (registered name); server := Stopped; out := [] |}).
Proof.
  intros Hname. unfold exec_module, mbind, Py_bind.
  rewrite declarations_fresh. by rewrite decide_False.
Qed.

Lemma exec_module_main env :
  ∃ evs, Forall serving_event evs ∧
    exec_module env "__main__" fresh =
      match bind_error env "0.0.0.0" 5000 with
      | Some errno =>
          (Raise (OSError errno),
           {| app := Some (registered "__main__"); server := Stopped;
              out := [EvBind "0.0.0.0" 5000] |})
      | None =>
          (Return tt,
           {| app := Some (registered "__main__");
              server := Listening "0.0.0.0" 5000;
              out := EvBind "0.0.0.0" 5000 :: evs |})
      end.
Proof.
  unfold exec_module, mbind, Py_bind. rewrite declarations_fresh.
  rewrite decide_True by done.
  unfold run, mbind, Py_bind, self, emit, set_server, log; simpl.
  destruct (bind_error env "0.0.0.0" 5000) as [errno|].
  - exists []. split; [constructor|done].
  - match goal with |- context [serve_forever _ ?p] =>
      destruct (serve_forever_spec (incoming env) p) as (evs & -> & Hevs) end.
    by exists evs.
Qed.

Lemma run_app env host port p : app (run env host port p).2 = app p.
Proof.
  unfold run, mbind, Py_bind, self, emit, set_server.
  destruct (app p) as [a|] eqn:Ha; [|done]. simpl.
  destruct (bind_error _ _ _); [done|].
  match goal with |- context [serve_forever _ ?q] =>
    destruct (serve_forever_spec (incoming env) q) as (evs & -> & _) end.
  done.
Qed.

Lemma handle_request_app req p : app (handle_request req p).2 = app p.
Proof. by destruct (serves_handle_request req p) as (evs & -> & _). Qed.

Lemma lifetime_python env name : lifetime name (final (python env name)).
Proof.
  unfold python, exec_module, mbind, Py_bind.
  pose proof (life_declared name) as Hdecl.
  destruct (declarations name fresh) as [[f|e] p]; simpl in Hdecl.
  - destruct (decide (name = "__main__")) as [Hmain|Hmain].
    + pose proof (life_run name env (Some "0.0.0.0") (Some 5000) p Hdecl) as Hrun.
      destruct (run _ _ _ p) as [[[]|e] p']; simpl in *; [done|].
      by apply life_traceback.
    + done.
  - by apply life_traceback.
Qed.

(** One GET for [/], as the serve loop sees it. *)
Lemma get_root_once name req p :
  Loaded name p → method req = "GET" → path req = "/" →
  handle_request req p =
    (Return tt, log p [EvCall def_hello_blue; EvSend hello_page]).
Proof.
  intros Hp Hmethod Hpath. unfold handle_request, mbind, Py_bind.
  rewrite (wsgi_app_root name) by done.
  rewrite decide_True by done. unfold emit. by rewrite log_log.
Qed.

(** * The claims *)

(** C1. In a process that has loaded the module, every GET request for the
    path [/] is answered with status 200 and the body
    [<h1 style='color:blue'>Hello, green!</h1>], whatever its query string,
    headers and body are: handling it enters [hello_blue] once and sends
    exactly that response. *)
Theorem get_root_fixed_response name req p :
  Loaded name p → method req = "GET" → path req = "/" →
  handle_request req p =
    (Return tt,
     log p [EvCall def_hello_blue;
            EvSend {| status := 200; mimetype := "text/html"; allow := ∅;
                      data := "<h1 style='color:blue'>Hello, green!</h1>" |}]).
Proof.
  intros Hp Hmethod Hpath. unfold handle_request, mbind, Py_bind.
  rewrite (wsgi_app_root name) by done.
  rewrite decide_True by done. unfold emit. by rewrite log_log.
Qed.

(** C2. When bind fails on 0.0.0.0:5000 (address in use, no permission: any
    errno), running the module as the main program ends with exit status 1
    and the exception reported on stderr; the server is still [Stopped], one
    bind was attempted and no other address tried, and nothing was served. *)
Theorem bind_failure_is_fatal env errno :
  bind_error env "0.0.0.0" 5000 = Some errno →
  exit_status (python env "__main__") = 1 ∧
  server (final (python env "__main__")) = Stopped ∧
  out (final (python env "__main__")) =
    [EvBind "0.0.0.0" 5000; EvTraceback (OSError errno)].
Proof.
  intros Hbind. unfold python.
  destruct (exec_module_main env) as (evs & _ & ->). by rewrite Hbind.
Qed.

(** C3, as amended. On the path [/], a request whose method is neither GET
    nor HEAD never enters [hello_blue] and changes nothing in the process:
    OPTIONS gets the framework's automatic options response, every other
    method the framework's 405 response. *)
Theorem root_handler_only_for_get_and_head name req p :
  Loaded name p → path req = "/" →
  method req ≠ "GET" → method req ≠ "HEAD" →
  wsgi_app req p =
    (Return (if decide (method req = "OPTIONS") then options_page
             else not_allowed_page), p).
Proof.
  intros Hp Hpath HGET HHEAD. rewrite (wsgi_app_root name) by done.
  rewrite !decide_False by done. by case_decide.
Qed.

(** C4. Serving the same GET request for [/] n times sends n copies of one
    response, and leaves the application object and the server state as
    they were. *)
Theorem repeated_get_identical name req n p :
  Loaded name p → method req = "GET" → path req = "/" →
  ∃ p', serve_forever (replicate n req) p = (Return tt, p') ∧
        app p' = app p ∧ server p' = server p ∧
        out p' = out p ++ mjoin (replicate n [EvCall def_hello_blue; EvSend hello_page]).
Proof.
  intros Hp Hmethod Hpath. revert p Hp.
  induction n as [|n IH]; intros p Hp; simpl.
  - exists p. by rewrite app_nil_r.
  - unfold mbind, Py_bind.
    rewrite (get_root_once name) by done.
    destruct (IH (log p [EvCall def_hello_blue; EvSend hello_page]) Hp)
      as (p' & -> & Happ & Hserver & Hout).
    exists p'. repeat split; [done..|].
    rewrite Hout. simpl. by rewrite <-(assoc_L (++)).
Qed.

(** C5. Through the whole life of the process the application object is the
    one the module's declarations built: it has exactly one (so at most one)
    handler for GET on [/], namely [hello_blue], and neither starting the
    server nor handling a request changes it. *)
Theorem registration_invariant name p :
  lifetime name p →
  app p = app (declarations name fresh).2 ∧
  ∃ a, app p = Some a ∧
       handlers a "/" "GET" = [def_hello_blue] ∧
       (length (handlers a "/" "GET") ≤ 1)%nat.
Proof.
  intros Hlife.
  assert (app p = Some (registered name)) as Happ.
  { induction Hlife as [|env host port p _ IH|req p _ IH|e p _ IH].
    - by rewrite declarations_fresh.
    - by rewrite run_app.
    - by rewrite handle_request_app.
    - done. }
  split; [by rewrite Happ, declarations_fresh|].
  exists (registered name). split; [done|]. split; [reflexivity|by vm_compute].
Qed.

(** C6. A call of [hello_blue] returns the fixed string and leaves the whole
    process state as it was: the application object, the server state and
    the output (nothing is logged, nothing is written). *)
Theorem hello_blue_pure p :
  hello_blue p = (Return (RvStr "<h1 style='color:blue'>Hello, green!</h1>"), p).
Proof. reflexivity. Qed.

(** C7. [hello_blue] never raises, and a request for [/] never gets an
    error response of the application: the response is a 200 or the
    framework's 405, never a 500, no exception is logged, and a request that
    is dispatched to the handler (GET or HEAD) gets a 200. *)
Theorem root_route_never_fails name req p :
  Loaded name p → path req = "/" →
  (∀ q, ∃ rv, code def_hello_blue q = (Return rv, q)) ∧
  ∃ r evs, wsgi_app req p = (Return r, log p evs) ∧
           (status r = 200 ∨ status r = 405) ∧
           (∀ e, EvLog e ∉ evs) ∧
           (method req = "GET" ∨ method req = "HEAD" → status r = 200).
Proof.
  intros Hp Hpath. split; [intros q; by eexists|].
  rewrite (wsgi_app_root name) by done.
  destruct (decide (method req = "GET")) as [HGET|HGET];
    [|destruct (decide (method req = "HEAD")) as [HHEAD|HHEAD]].
  - exists hello_page, [EvCall def_hello_blue].
    split; [done|]. split; [by left|]. split; [|done].
    intros e [=]%list_elem_of_singleton.
  - exists head_page, [EvCall def_hello_blue].
    split; [done|]. split; [by left|]. split; [|done].
    intros e [=]%list_elem_of_singleton.
  - exists (if decide (method req = "OPTIONS") then options_page else not_allowed_page), [].
    rewrite log_nil. split; [by case_decide|].
    split; [case_decide; [by left|by right]|].
    split; [|tauto]. intros e He. by apply not_elem_of_nil in He.
Qed.

(** C8. Run as the main program, the module binds 0.0.0.0:5000 and no other
    address, in every environment; when the bind succeeds the server listens
    on exactly that address. *)
Theorem listen_address_fixed env :
  binds (out (final (python env "__main__"))) = [("0.0.0.0", 5000)] ∧
  server (final (python env "__main__")) =
    match bind_error env "0.0.0.0" 5000 with
    | None => Listening "0.0.0.0" 5000
    | Some _ => Stopped
    end.
Proof.
  unfold python. destruct (exec_module_main env) as (evs & Hevs & ->).
  destruct (bind_error env "0.0.0.0" 5000); simpl; [done|].
  by rewrite (binds_serving evs Hevs).
Qed.

(** C9. Registered without a methods argument, the rule for [/] accepts GET,
    HEAD and OPTIONS.  A request for [/] gets the 405 response if and only
    if its method is none of the three, and a HEAD request enters
    [hello_blue] and gets a 200 with an empty body. *)
Theorem root_accepts_get_head_options name req p :
  Loaded name p → path req = "/" →
  (∃ a, app p = Some a ∧ methods <$> url_map a = [{["GET"; "HEAD"; "OPTIONS"]}]) ∧
  ∃ r p', wsgi_app req p = (Return r, p') ∧
          (status r = 405 ↔
             method req ≠ "GET" ∧ method req ≠ "HEAD" ∧ method req ≠ "OPTIONS") ∧
          (method req = "HEAD" →
             r = head_page ∧ p' = log p [EvCall def_hello_blue]).
Proof.
  intros Hp Hpath. split.
  { exists (registered name). split; [|done]. by rewrite Hp, declarations_fresh. }
  rewrite (wsgi_app_root name) by done.
  repeat case_decide; eexists _, _; (split; [reflexivity|]);
    simpl; split; try (split; [done|tauto]); try congruence; tauto.
Qed.

(** C10. The server is started only when the module runs as the main
    program.  Under any other name, executing the module registers the route
    and returns: no bind is attempted and the server stays [Stopped].  An
    address is bound exactly when the name is [__main__]. *)
Theorem import_does_not_serve env name :
  (name ≠ "__main__" →
     python env name =
       {| exit_status := 0;
          final := {| app := Some (registered name); server := Stopped; out := [] |} |}) ∧
  binds (out (final (python env name))) =
    (if decide (name = "__main__") then [("0.0.0.0", 5000)] else []).
Proof.
  split.
  - intros Hname. unfold python. by rewrite exec_module_import.
  - unfold python. case_decide as Hname.
    + subst name. destruct (exec_module_main env) as (evs & Hevs & ->).
      destruct (bind_error env "0.0.0.0" 5000); simpl; [done|].
      by rewrite (binds_serving evs Hevs).
    + by rewrite exec_module_import.
Qed.

(** * Further properties of the module *)

(** ** Paths other than [/] *)



(** ** Every request, in every loaded state *)












(** X5. On the path [/] the Allow header tells the truth: in the automatic
    OPTIONS response and in every 405 response, a method is listed exactly
    when a request for [/] with that method is not answered by a 405. *)
Theorem allow_header_exact name req req' p r r' :
  Loaded name p → path req = "/" → path req' = "/" →
  (wsgi_app req p).1 = Return r → (wsgi_app req' p).1 = Return r' →
  method req = "OPTIONS" ∨ status r = 405 →
  (method req' ∈ allow r ↔ status r' ≠ 405).
Proof.
  intros Hp Hpath Hpath'. rewrite !(wsgi_app_root name) by done.
  intros Hr Hr' Hlisted.
  assert (allow r = root_methods) as ->.
  { repeat case_decide; simplify_eq/=; try done; destruct Hlisted; congruence. }
  rewrite elem_of_root_methods. clear Hr Hlisted.
  repeat case_decide; simplify_eq/=; split; try done; try tauto; auto.
Qed.


End Framework.

(** * The theorems at sample inputs *)

Lemma get_root_fixed_response_witness :
  Loaded "__main__" (declarations "__main__" fresh).2 ∧
  method (sample_request "GET") = "GET" ∧
  path (sample_request "GET") = "/" ∧
  handle_request sample_pages (sample_request "GET") (declarations "__main__" fresh).2 =
    (Return tt,
     log (declarations "__main__" fresh).2
       [EvCall def_hello_blue;
        EvSend {| status := 200; mimetype := "text/html"; allow := ∅;
                  data := "<h1 style='color:blue'>Hello, green!</h1>" |}]).
Proof.
  split; [reflexivity|]. split; [reflexivity|]. split; [reflexivity|].
  apply (get_root_fixed_response sample_pages "__main__"); reflexivity.
Defined.

Lemma bind_failure_is_fatal_witness :
  bind_error busy_env "0.0.0.0" 5000 = Some 98 ∧
  exit_status (python sample_pages busy_env "__main__") = 1 ∧
  server (final (python sample_pages busy_env "__main__")) = Stopped ∧
  out (final (python sample_pages busy_env "__main__")) =
    [EvBind "0.0.0.0" 5000; EvTraceback (OSError 98)].
Proof.
  split; [reflexivity|].
  apply (bind_failure_is_fatal sample_pages busy_env 98). reflexivity.
Defined.

Lemma root_handler_only_for_get_and_head_witness :
  Loaded "__main__" (declarations "__main__" fresh).2 ∧
  path (sample_request "POST") = "/" ∧
  method (sample_request "POST") ≠ "GET" ∧
  method (sample_request "POST") ≠ "HEAD" ∧
  wsgi_app sample_pages (sample_request "POST") (declarations "__main__" fresh).2 =
    (Return (if decide (method (sample_request "POST") = "OPTIONS")
             then options_page else not_allowed_page sample_pages),
     (declarations "__main__" fresh).2).
Proof.
  split; [reflexivity|]. split; [reflexivity|].
  split; [discriminate|]. split; [discriminate|].
  apply (root_handler_only_for_get_and_head sample_pages "__main__");
    [reflexivity|reflexivity|discriminate|discriminate].
Defined.

(** C3 as the specification states it fails: a HEAD request for [/] is not a
    GET request, and handling it enters [hello_blue]. *)
Lemma head_request_enters_hello_blue :
  ¬ (∀ (error_page : Z → string) name req p,
       Loaded name p → path req = "/" → method req ≠ "GET" →
       ∃ evs, (wsgi_app error_page req p).2 = log p evs ∧
              EvCall def_hello_blue ∉ evs).
Proof.
  intros Hclaim.
  destruct (Hclaim sample_pages "__main__" (sample_request "HEAD")
              (declarations "__main__" fresh).2)
    as (evs & Hevs & Hnot); [reflexivity|reflexivity|discriminate|].
  apply Hnot.
  change (log (declarations "__main__" fresh).2 [EvCall def_hello_blue]
          = log (declarations "__main__" fresh).2 evs) in Hevs.
  apply log_inj in Hevs. subst evs. by apply list_elem_of_singleton.
Qed.

Lemma repeated_get_identical_witness :
  Loaded "__main__" (declarations "__main__" fresh).2 ∧
  method (sample_request "GET") = "GET" ∧
  path (sample_request "GET") = "/" ∧
  ∃ p', serve_forever sample_pages (replicate 3 (sample_request "GET"))
          (declarations "__main__" fresh).2 = (Return tt, p') ∧
        app p' = app (declarations "__main__" fresh).2 ∧
        server p' = server (declarations "__main__" fresh).2 ∧
        out p' = out (declarations "__main__" fresh).2 ++
                 mjoin (replicate 3 [EvCall def_hello_blue; EvSend hello_page]).
Proof.
  split; [reflexivity|]. split; [reflexivity|]. split; [reflexivity|].
  apply (repeated_get_identical sample_pages "__main__"); reflexivity.
Defined.

Lemma registration_invariant_witness :
  lifetime sample_pages "__main__" (final (python sample_pages free_env "__main__")) ∧
  app (final (python sample_pages free_env "__main__")) =
    app (declarations "__main__" fresh).2 ∧
  ∃ a, app (final (python sample_pages free_env "__main__")) = Some a ∧
       handlers a "/" "GET" = [def_hello_blue] ∧
       (length (handlers a "/" "GET") ≤ 1)%nat.
Proof.
  split; [apply lifetime_python|].
  apply (registration_invariant sample_pages "__main__"), lifetime_python.
Defined.

Lemma root_route_never_fails_witness :
  Loaded "__main__" (declarations "__main__" fresh).2 ∧
  path (sample_request "GET") = "/" ∧
  (∀ q, ∃ rv, code def_hello_blue q = (Return rv, q)) ∧
  ∃ r evs,
    wsgi_app sample_pages (sample_request "GET") (declarations "__main__" fresh).2 =
      (Return r, log (declarations "__main__" fresh).2 evs) ∧
    (status r = 200 ∨ status r = 405) ∧
    (∀ e, EvLog e ∉ evs) ∧
    (method (sample_request "GET") = "GET" ∨ method (sample_request "GET") = "HEAD" →
     status r = 200).
Proof.
  split; [reflexivity|]. split; [reflexivity|].
  apply (root_route_never_fails sample_pages "__main__"); reflexivity.
Defined.

Lemma root_accepts_get_head_options_witness :
  Loaded "__main__" (declarations "__main__" fresh).2 ∧
  path (sample_request "HEAD") = "/" ∧
  (∃ a, app (declarations "__main__" fresh).2 = Some a ∧
        methods <$> url_map a = [{["GET"; "HEAD"; "OPTIONS"]}]) ∧
  ∃ r p',
    wsgi_app sample_pages (sample_request "HEAD") (declarations "__main__" fresh).2 =
      (Return r, p') ∧
    (status r = 405 ↔
       method (sample_request "HEAD") ≠ "GET" ∧
       method (sample_request "HEAD") ≠ "HEAD" ∧
       method (sample_request "HEAD") ≠ "OPTIONS") ∧
    (method (sample_request "HEAD") = "HEAD" →
       r = head_page ∧
       p' = log (declarations "__main__" fresh).2 [EvCall def_hello_blue]).
Proof.
  split; [reflexivity|]. split; [reflexivity|].
  apply (root_accepts_get_head_options sample_pages "__main__"); reflexivity.
Defined.

Lemma import_does_not_serve_witness :
  "green.app" ≠ "__main__" ∧
  python sample_pages busy_env "green.app" =
    {| exit_status := 0;
       final := {| app := Some (registered "green.app"); server := Stopped; out := [] |} |}.
Proof.
  split; [discriminate|].
  apply (import_does_not_serve sample_pages busy_env "green.app"). discriminate.
Defined.




Lemma allow_header_exact_witness :
  Loaded "__main__" (declarations "__main__" fresh).2 ∧
  path (sample_request "POST") = "/" ∧
  path (sample_request "HEAD") = "/" ∧
  (wsgi_app sample_pages (sample_request "POST") (declarations "__main__" fresh).2).1 =
    Return (not_allowed_page sample_pages) ∧
  (wsgi_app sample_pages (sample_request "HEAD") (declarations "__main__" fresh).2).1 =
    Return head_page ∧
  (method (sample_request "POST") = "OPTIONS" ∨
   status (not_allowed_page sample_pages) = 405) ∧
  (method (sample_request "HEAD") ∈ allow (not_allowed_page sample_pages) ↔
   status head_page ≠ 405).
Proof.
  split; [reflexivity|]. split; [reflexivity|]. split; [reflexivity|].
  split; [reflexivity|]. split; [reflexivity|]. split; [right; reflexivity|].
  apply (allow_header_exact sample_pages "__main__" (sample_request "POST")
           (sample_request "HEAD") (declarations "__main__" fresh).2);
    [reflexivity|reflexivity|reflexivity|reflexivity|reflexivity|right; reflexivity].
Defined.

